(** * dtop: worker telemetry aggregation, refresh scheduling and formatting

    Shallow embedding of [src/dtop/workers.py] (and of the memory label of
    [src/dask_top/workers.py]).  Python floats are modelled as IEEE-754
    binary64 values: a float is an integer multiple of 2^-1074, and every
    arithmetic operation rounds its exact result to nearest, ties to even. *)

From Stdlib Require Import ZArith Lia List String Bool.
From Stdlib Require Import Numbers.DecimalString.
Import ListNotations.
Open Scope string_scope.
Open Scope Z_scope.

(** ** Python exceptions and the error/state monad *)

Inductive exn : Type :=
| ZeroDivisionError
| KeyError (key : string)
| SourceError.

Inductive res (A : Type) : Type :=
| Ok (a : A)
| Err (e : exn).
Arguments Ok {A} a.
Arguments Err {A} e.

Definition res_bind {A B} (m : res A) (k : A -> res B) : res B :=
  match m with Ok a => k a | Err e => Err e end.

Notation "x <- m ;; k" := (res_bind m (fun x => k))
  (at level 61, m at next level, right associativity).

(** ** Binary64 floats *)
Module Float64.

(** A float is [N * 2^-1074]; we store [N]. *)
Abbreviation flt := Z (only parsing).

Definition unit_exp : Z := 1074.
Definition scale : Z := 2 ^ unit_exp.

(** Round half to even of the non-negative ratio [a / b] ([b > 0]). *)
Definition rhe (a b : Z) : Z :=
  let d := a / b in
  let r := a mod b in
  if 2 * r <? b then d
  else if b <? 2 * r then d + 1
  else if Z.even d then d else d + 1.

(** Correct rounding of the non-negative real [p / q] to binary64, in units
    of 2^-1074 ([q > 0]); the ulp is [2^s] units, with [s = 0] in the
    subnormal range.  Overflow to infinity is not modelled. *)
Definition round_pos (p q : Z) : flt :=
  let X := p * scale in
  let s := Z.max 0 (Z.log2 (X / q) - 52) in
  rhe X (q * 2 ^ s) * 2 ^ s.

(** Correct rounding of [p / q] for any sign ([q <> 0]). *)
Definition round_ratio (p q : Z) : flt :=
  if Bool.eqb (p <? 0) (q <? 0) then round_pos (Z.abs p) (Z.abs q)
  else - round_pos (Z.abs p) (Z.abs q).

(** [float(n)] for a Python int. *)
Definition of_int (n : Z) : flt := round_ratio n 1.

(** Python true division [a / b] of two floats. *)
Definition fdiv (a b : flt) : res flt :=
  if b =? 0 then Err ZeroDivisionError else Ok (round_ratio a b).

(** Python [a * b] and [a + b] on floats. *)
Definition fmul (a b : flt) : flt := round_ratio (a * b) (scale * scale).
Definition fadd (a b : flt) : flt := round_ratio (a + b) scale.

(** Python [a / b] on two ints: the exact quotient, correctly rounded. *)
Definition int_truediv (a b : Z) : res flt :=
  if b =? 0 then Err ZeroDivisionError else Ok (round_ratio a b).

(** Comparisons are exact on the values. *)
Definition flt_lt (a b : flt) : bool := a <? b.
Definition flt_le (a b : flt) : bool := a <=? b.

End Float64.

Import Float64.

Arguments round_ratio : simpl never.
Arguments of_int : simpl never.

(** ** Rendering numbers as Python does *)

(** [str(n)] for a Python int. *)
Definition str_int (n : Z) : string := NilEmpty.string_of_int (Z.to_int n).

(** Two decimal digits, zero-padded. *)
Definition two_digits (k : Z) : string :=
  if k <? 10 then "0" ++ str_int k else str_int k.

(** [f'{x:.2f}']: the exact value of [x] rounded half to even to two
    decimals.  (Negative zero is not represented.) *)
Definition fmt_2f (x : flt) : string :=
  let k := rhe (Z.abs x * 100) scale in
  (if x <? 0 then "-" else "") ++ str_int (k / 100) ++ "." ++ two_digits (k mod 100).

Arguments fmt_2f : simpl never.

(** [f'{x}'] of a value that may be [None]. *)
Definition py_str_opt (o : option string) : string :=
  match o with Some s => s | None => "None" end.

(** ** Worker records ([WorkerInfoModel]) *)

(** The raw per-worker entry of [scheduler_info()['workers']]: a dict whose
    keys may be missing; [None] stands for a missing key. *)
Record raw_metrics : Type := {
  m_memory : option Z;
  m_cpu : option flt;
  m_num_fds : option Z;
  m_executing : option Z;
  m_in_memory : option Z;
  m_ready : option Z;
  m_in_flight : option Z }.

Record raw_info : Type := {
  i_memory_limit : option Z;
  i_metrics : option raw_metrics }.

(** The workers mapping, in the dict's iteration order. *)
Definition worker_map := list (string * raw_info).

(** [d[key]]: raises [KeyError] when the key is missing. *)
Definition getitem {A} (key : string) (o : option A) : res A :=
  match o with Some a => Ok a | None => Err (KeyError key) end.

Record WorkerInfoModel : Type := {
  addr : string;
  max_memory : Z;
  current_memory : Z;
  cpu : flt;
  fds : Z;
  executing : Z;
  in_memory : Z;
  ready : Z;
  in_flight : Z }.

(** [info['metrics'][key]] *)
Definition metric {A} (info : raw_info) (key : string) (f : raw_metrics -> option A) : res A :=
  m <- getitem "metrics" (i_metrics info) ;; getitem key (f m).

(** [WorkerInfoModel.from_worker]: keyword arguments are evaluated left to
    right, so the first missing key is the one reported. *)
Definition from_worker (a : string) (info : raw_info) : res WorkerInfoModel :=
  max_memory <- getitem "memory_limit" (i_memory_limit info) ;;
  current_memory <- metric info "memory" m_memory ;;
  cpu <- metric info "cpu" m_cpu ;;
  fds <- metric info "num_fds" m_num_fds ;;
  executing <- metric info "executing" m_executing ;;
  in_memory <- metric info "in_memory" m_in_memory ;;
  ready <- metric info "ready" m_ready ;;
  in_flight <- metric info "in_flight" m_in_flight ;;
  Ok {| addr := a; max_memory := max_memory; current_memory := current_memory;
        cpu := cpu; fds := fds; executing := executing; in_memory := in_memory;
        ready := ready; in_flight := in_flight |}.

(** [WorkerInfoModel.memory_util]: [current_memory / max_memory]. *)
Definition memory_util (w : WorkerInfoModel) : res flt :=
  int_truediv (current_memory w) (max_memory w).

(** The list comprehension of [WorkerInfoManager._refresh]: the first
    failing entry aborts the whole comprehension. *)
Fixpoint from_workers (wi : worker_map) : res (list WorkerInfoModel) :=
  match wi with
  | [] => Ok []
  | (a, info) :: rest =>
      w <- from_worker a info ;;
      ws <- from_workers rest ;;
      Ok (w :: ws)
  end.

(** The value [WorkerInfoManager._refresh] assigns to [self.workers]; the
    argument is the outcome of [self._client.scheduler_info()['workers']]
    ([Err SourceError] when the call fails). *)
Definition manager_refresh (fetch : res worker_map) : res (list WorkerInfoModel) :=
  worker_info <- fetch ;;
  from_workers worker_info.

(** [WorkerInfoManager.worker_count] *)
Definition worker_count (workers : list WorkerInfoModel) : Z :=
  Z.of_nat (List.length workers).

(** ** Presentation *)

(** Python float literals used by the formatters. *)
Definition one : flt := of_int 1.
Definition half : flt := round_ratio 1 2.
Definition three_quarters : flt := round_ratio 3 4.
Definition f1e9 : flt := of_int 1000000000.
Definition f1e6 : flt := of_int 1000000.

(** Division by a nonzero float literal. *)
Definition fdiv_lit (a b : flt) : flt := round_ratio a b.

(** [WorkerInfoScene._get_human_readable_byte_count]; falling off the end
    of the function returns [None]. *)
Definition get_human_readable_byte_count (byte_count : Z) : option string :=
  let gigabytes := fdiv_lit (of_int byte_count) f1e9 in
  if flt_lt one gigabytes then Some (fmt_2f gigabytes ++ " GB")
  else
    let megabytes := fdiv_lit (of_int byte_count) f1e6 in
    if flt_lt one megabytes then Some (fmt_2f megabytes ++ " MB")
    else None.

(** The colour markup chosen by [WorkerInfoScene._format_mem]. *)
Definition mem_colour (memory_perc : flt) : string :=
  if flt_le half memory_perc && flt_lt memory_perc three_quarters then "${3}"
  else if flt_le three_quarters memory_perc && flt_le memory_perc one then "${1}"
  else "".

(** [WorkerInfoScene._format_mem] *)
Definition format_mem (w : WorkerInfoModel) : res string :=
  memory_perc <- memory_util w ;;
  let mem_used := get_human_readable_byte_count (current_memory w) in
  let mem_total := get_human_readable_byte_count (max_memory w) in
  let mem := fmt_2f (fmul memory_perc (of_int 100)) ++ "% ("
             ++ py_str_opt mem_used ++ "/" ++ py_str_opt mem_total ++ ")" in
  Ok (mem_colour memory_perc ++ mem).

(** The colour markup chosen by [WorkerInfoScene._format_cpu]. *)
Definition cpu_colour (cpu_perc : flt) : string :=
  if flt_le (of_int 40) cpu_perc && flt_lt cpu_perc (of_int 75) then "${3}"
  else if flt_le (of_int 75) cpu_perc && flt_le cpu_perc (of_int 100) then "${1}"
  else if flt_lt (of_int 100) cpu_perc then "${2}"
  else "".

(** A table cell.  The CPU cell [f'{color}{cpu_perc}'] is kept as its two
    parts: the markup and the float whose [repr] follows it. *)
Inductive cell : Type :=
| Text (s : string)
| CpuCell (colour : string) (v : flt).

(** [WorkerInfoScene._format_cpu] *)
Definition format_cpu (w : WorkerInfoModel) : cell := CpuCell (cpu_colour (cpu w)) (cpu w).

(** Severity tiers, and the tier each colour markup of [src/dtop] stands
    for (asciimatics colours: 1 red, 2 green, 3 yellow). *)
Inductive tier : Type := Neutral | Low | Medium | High | Overloaded.

Definition markup_tier (colour : string) : tier :=
  if String.eqb colour "${3}" then Medium
  else if String.eqb colour "${1}" then High
  else if String.eqb colour "${2}" then Overloaded
  else Neutral.

(** [WorkerInfoView._get_memory_label] of [src/dask_top]: the label text and
    its [custom_colour] ([None] when left unset). *)
Definition get_memory_label (w : WorkerInfoModel) : res (string * option string) :=
  memory_perc <- memory_util w ;;
  let mem_used := get_human_readable_byte_count (current_memory w) in
  let mem_total := get_human_readable_byte_count (max_memory w) in
  let text := fmt_2f (fmul memory_perc (of_int 100)) ++ "% ("
              ++ py_str_opt mem_used ++ "/" ++ py_str_opt mem_total ++ ")" in
  let colour :=
    if flt_lt 0 memory_perc && flt_lt memory_perc half then Some "low_util"
    else if flt_le half memory_perc && flt_lt memory_perc three_quarters then Some "medium_util"
    else if flt_le three_quarters memory_perc && flt_le memory_perc one then Some "high_util"
    else None in
  Ok (text, colour).

Definition label_tier (c : option string) : tier :=
  match c with
  | Some "low_util" => Low
  | Some "medium_util" => Medium
  | Some "high_util" => High
  | _ => Neutral
  end.

(** ** The refresh cycle ([WorkerInfoScene._update]) *)

(** The local accumulators of the loop in [_update]. *)
Record totals : Type := {
  cpu_total : flt;
  mem_total : flt;
  fds_total : Z;
  exec_total : Z;
  in_mem_total : Z;
  ready_total : Z;
  in_flight_total : Z }.

Definition zero_totals : totals :=
  {| cpu_total := 0; mem_total := 0; fds_total := 0; exec_total := 0;
     in_mem_total := 0; ready_total := 0; in_flight_total := 0 |}.

(** One iteration's [+=] statements. *)
Definition accumulate (t : totals) (w : WorkerInfoModel) (util : flt) : totals :=
  {| cpu_total := fadd (cpu_total t) (cpu w);
     mem_total := fadd (mem_total t) util;
     fds_total := fds_total t + fds w;
     exec_total := exec_total t + executing w;
     in_mem_total := in_mem_total t + in_memory w;
     ready_total := ready_total t + ready w;
     in_flight_total := in_flight_total t + in_flight w |}.

Definition worker_row (w : WorkerInfoModel) (mem : string) : list cell :=
  [Text (addr w); format_cpu w; Text mem; Text (str_int (fds w));
   Text (str_int (executing w)); Text (str_int (in_memory w));
   Text (str_int (ready w)); Text (str_int (in_flight w))].

(** [for idx, worker in enumerate(self._model.workers): ...] *)
Fixpoint update_loop (idx : Z) (ws : list WorkerInfoModel)
    (opts : list (list cell * Z)) (t : totals)
    : res (list (list cell * Z) * totals) :=
  match ws with
  | [] => Ok (opts, t)
  | w :: rest =>
      mem <- format_mem w ;;
      let opts' := (opts ++ [(worker_row w mem, idx)])%list in
      util <- memory_util w ;;
      update_loop (idx + 1) rest opts' (accumulate t w util)
  end.

(** The row assigned to [self.rollup_widget.options]. *)
Definition rollup_row (num_workers : Z) (t : totals) : res (list string) :=
  avg_cpu <- fdiv (cpu_total t) (of_int num_workers) ;;
  avg_mem <- fdiv (mem_total t) (of_int num_workers) ;;
  Ok [str_int num_workers; fmt_2f avg_cpu; fmt_2f (fmul avg_mem (of_int 100)) ++ "%";
      str_int (fds_total t); str_int (exec_total t); str_int (in_mem_total t);
      str_int (ready_total t); str_int (in_flight_total t)].

(** The state the scene and its manager hold between ticks. *)
Record scene : Type := {
  last_frame : Z;
  model_workers : list WorkerInfoModel;
  worker_options : list (list cell * Z);
  rollup_options : list (list string * Z) }.

(** Python statements run against the scene's state; an exception leaves
    the mutations made before it in place. *)
Definition M (A : Type) : Type := scene -> res A * scene.

Definition ret {A} (a : A) : M A := fun s => (Ok a, s).
Definition bindM {A B} (m : M A) (k : A -> M B) : M B :=
  fun s => match m s with
           | (Ok a, s') => k a s'
           | (Err e, s') => (Err e, s')
           end.
Definition lift {A} (r : res A) : M A := fun s => (r, s).
Definition gets {A} (f : scene -> A) : M A := fun s => (Ok (f s), s).
Definition modify (f : scene -> scene) : M unit := fun s => (Ok tt, f s).

Notation "x <~ m ;; k" := (bindM m (fun x => k))
  (at level 61, m at next level, right associativity).
Notation "m ;;; k" := (bindM m (fun _ => k))
  (at level 61, right associativity).

Definition set_last_frame (n : Z) (s : scene) : scene :=
  {| last_frame := n; model_workers := model_workers s;
     worker_options := worker_options s; rollup_options := rollup_options s |}.
Definition set_model_workers (ws : list WorkerInfoModel) (s : scene) : scene :=
  {| last_frame := last_frame s; model_workers := ws;
     worker_options := worker_options s; rollup_options := rollup_options s |}.
Definition set_worker_options (o : list (list cell * Z)) (s : scene) : scene :=
  {| last_frame := last_frame s; model_workers := model_workers s;
     worker_options := o; rollup_options := rollup_options s |}.
Definition set_rollup_options (o : list (list string * Z)) (s : scene) : scene :=
  {| last_frame := last_frame s; model_workers := model_workers s;
     worker_options := worker_options s; rollup_options := o |}.

(** [WorkerInfoScene.frame_update_count] *)
Definition frame_update_count : Z := 20.

(** The condition of the [if] in [_update]. *)
Definition refresh_due (last frame_no : Z) : bool :=
  (frame_update_count <=? frame_no - last) || (last =? 0).

(** [self._model._refresh()] *)
Definition refreshM (fetch : res worker_map) : M unit :=
  ws <~ lift (manager_refresh fetch) ;;
  modify (set_model_workers ws).

(** [WorkerInfoScene._update]; [fetch] is what the scheduler call returns
    on this tick.  The final [super()._update(frame_no)] only redraws the
    widgets and is not modelled. *)
Definition scene_update (fetch : res worker_map) (frame_no : Z) : M unit :=
  last <~ gets last_frame ;;
  if refresh_due last frame_no then
    modify (set_last_frame frame_no) ;;;
    refreshM fetch ;;;
    ws <~ gets model_workers ;;
    r <~ lift (update_loop 0 ws [] zero_totals) ;;
    let '(opts, t) := r in
    modify (set_worker_options opts) ;;;
    row <~ lift (rollup_row (worker_count ws) t) ;;
    modify (set_rollup_options [(row, 0)])
  else ret tt.

(** Feeding the scene a sequence of ticks (with the scheduler answering
    [fetch] each time) and recording the ticks on which it refreshed. *)
Fixpoint run_ticks (fetch : res worker_map) (ticks : list Z) (s : scene)
    : list Z * scene :=
  match ticks with
  | [] => ([], s)
  | t :: rest =>
      let fired := refresh_due (last_frame s) t in
      let s' := snd (scene_update fetch t s) in
      let '(fs, s'') := run_ticks fetch rest s' in
      ((if fired then t :: fs else fs), s'')
  end.

(** The state [WorkerInfoScene.__init__] leaves: [_last_frame = 0], the
    manager refreshed, both widgets empty. *)
Definition init_scene (ws : list WorkerInfoModel) : scene :=
  {| last_frame := 0; model_workers := ws; worker_options := []; rollup_options := [] |}.

(** Sample data. *)
Definition full_metrics (mem : Z) (c : flt) : raw_metrics :=
  {| m_memory := Some mem; m_cpu := Some c; m_num_fds := Some 30;
     m_executing := Some 2; m_in_memory := Some 5; m_ready := Some 1;
     m_in_flight := Some 0 |}.
Definition sample_info (limit mem : Z) : raw_info :=
  {| i_memory_limit := Some limit; i_metrics := Some (full_metrics mem (of_int 50)) |}.
Definition sample_worker (a : string) (cur lim : Z) (c : flt) : WorkerInfoModel :=
  {| addr := a; max_memory := lim; current_memory := cur; cpu := c; fds := 30;
     executing := 2; in_memory := 5; ready := 1; in_flight := 0 |}.

(** Spec-side helper: the arithmetic sum of one field over the records. *)
Definition sum_field (f : WorkerInfoModel -> Z) (ws : list WorkerInfoModel) : Z :=
  fold_right (fun w acc => f w + acc) 0 ws.

(** The ticks on which the scene refreshes, computed from [_last_frame]
    alone. *)
Fixpoint schedule (last : Z) (ticks : list Z) : list Z :=
  match ticks with
  | [] => []
  | t :: rest =>
      if refresh_due last t then t :: schedule t rest else schedule last rest
  end.

(** Whether every key [from_worker] reads is present. *)
Definition has_all_fields (info : raw_info) : bool :=
  match i_memory_limit info, i_metrics info with
  | Some _, Some m =>
      match m_memory m, m_cpu m, m_num_fds m, m_executing m, m_in_memory m,
            m_ready m, m_in_flight m with
      | Some _, Some _, Some _, Some _, Some _, Some _, Some _ => true
      | _, _, _, _, _, _, _ => false
      end
  | _, _ => false
  end.

Definition ticks_upto (n : nat) : list Z := map Z.of_nat (seq 0 (S n)).

(** Spec-side: the CPU tiers as the specification words them. *)
Definition cpu_tier_spec (v : flt) : tier :=
  if flt_lt v (of_int 40) then Neutral
  else if flt_lt v (of_int 75) then Medium
  else if flt_le v (of_int 100) then High
  else Overloaded.

(** ** The older [src/dask_top] worker model *)

(** [dask_top.workers.WorkerInfo]: reads four keys only. *)
Record DaskWorkerInfo : Type := {
  d_addr : string;
  d_max_memory : Z;
  d_current_memory : Z;
  d_cpu : flt;
  d_fds : Z }.

(** [WorkerInfo.__init__]: the assignments run in order, so the first
    missing key is the one reported. *)
Definition dask_worker_info (a : string) (info : raw_info) : res DaskWorkerInfo :=
  max_memory <- getitem "memory_limit" (i_memory_limit info) ;;
  current_memory <- metric info "memory" m_memory ;;
  cpu <- metric info "cpu" m_cpu ;;
  fds <- metric info "num_fds" m_num_fds ;;
  Ok {| d_addr := a; d_max_memory := max_memory; d_current_memory := current_memory;
        d_cpu := cpu; d_fds := fds |}.

Fixpoint dask_worker_infos (wi : worker_map) : res (list DaskWorkerInfo) :=
  match wi with
  | [] => Ok []
  | (a, info) :: rest =>
      w <- dask_worker_info a info ;;
      ws <- dask_worker_infos rest ;;
      Ok (w :: ws)
  end.

(** [ClusterWorkerInfo._refresh_worker_info]: [self.workers] (initially
    [None]) after the call, and whether the call raised. *)
Definition cluster_refresh (fetch : res worker_map) (workers : option (list DaskWorkerInfo))
    : res unit * option (list DaskWorkerInfo) :=
  match fetch with
  | Err e => (Err e, workers)
  | Ok worker_info =>
      match dask_worker_infos worker_info with
      | Err e => (Err e, workers)
      | Ok ws => (Ok tt, Some ws)
      end
  end.

(** [ClusterWorkerInfo.worker_count]: refresh, then [len(self.workers)]. *)
Definition cluster_worker_count (fetch : res worker_map) (workers : option (list DaskWorkerInfo))
    : res Z * option (list DaskWorkerInfo) :=
  match cluster_refresh fetch workers with
  | (Err e, ws) => (Err e, ws)
  | (Ok _, Some ws) => (Ok (Z.of_nat (List.length ws)), Some ws)
  | (Ok _, None) => (Ok 0, None)
  end.

(** ** Helpers for the properties below *)

(** Severity order of the tiers. *)
Definition tier_rank (t : tier) : Z :=
  match t with Neutral => 0 | Low => 1 | Medium => 2 | High => 3 | Overloaded => 4 end.

(** The ticks of 0, 1, 2, ... on which the scene refreshes. *)
Definition fires (t : Z) : bool :=
  (t =? 0) || (t =? 1) || ((21 <=? t) && ((t - 1) mod 20 =? 0)).

(** The value of [_last_frame] after feeding ticks. *)
Fixpoint schedule_last (last : Z) (ticks : list Z) : Z :=
  match ticks with
  | [] => last
  | t :: rest => schedule_last (if refresh_due last t then t else last) rest
  end.

(** A worker entry carrying only the keys [src/dask_top] reads. *)
Definition info_without_counters : raw_info :=
  {| i_memory_limit := Some 1000000000;
     i_metrics := Some {| m_memory := Some 500000000; m_cpu := Some (of_int 50);
                          m_num_fds := Some 30; m_executing := None; m_in_memory := None;
                          m_ready := None; m_in_flight := None |} |}.

(** ** Lemmas on the float model *)

Lemma rhe_exact (k b : Z) : 0 < b -> rhe (k * b) b = k.
Proof.
  intros Hb. unfold rhe.
  rewrite Z.div_mul by lia. rewrite Z_mod_mult.
  destruct (2 * 0 <? b) eqn:E; [reflexivity|]. apply Z.ltb_ge in E. lia.
Qed.

Lemma rhe_bounds (a b : Z) : 0 < b -> a / b <= rhe a b <= a / b + 1.
Proof.
  intros Hb. unfold rhe.
  destruct (2 * (a mod b) <? b); [lia|].
  destruct (b <? 2 * (a mod b)); [lia|].
  destruct (Z.even (a / b)); lia.
Qed.

Lemma rhe_le (a b m : Z) : 0 < b -> a <= m * b -> rhe a b <= m.
Proof.
  intros Hb Ha.
  assert (Hq : a / b <= m) by (apply Z.div_le_upper_bound; lia).
  destruct (Z.eq_dec (a / b) m) as [Em|Em].
  - unfold rhe.
    assert (Hr : a mod b = 0).
    { pose proof (Z.div_mod a b ltac:(lia)) as D.
      pose proof (Z.mod_pos_bound a b Hb). nia. }
    rewrite Hr. simpl. destruct (0 <? b) eqn:E; [lia|]. apply Z.ltb_ge in E. lia.
  - pose proof (rhe_bounds a b Hb). lia.
Qed.

Lemma scale_pos : 0 < scale.
Proof. unfold scale, unit_exp. apply Z.pow_pos_nonneg; lia. Qed.

Lemma round_pos_le_scale (p q : Z) :
  0 <= p -> 0 < q -> p <= q -> round_pos p q <= scale.
Proof.
  intros Hp Hq Hpq. unfold round_pos.
  set (X := p * scale).
  pose proof scale_pos as Hs.
  assert (HXq : X / q <= scale).
  { apply Z.div_le_upper_bound; [lia|]. unfold X. nia. }
  assert (Hlog : Z.log2 (X / q) <= unit_exp).
  { destruct (Z.le_gt_cases (X / q) 0) as [H0|H0].
    - rewrite Z.log2_nonpos by lia. unfold unit_exp; lia.
    - unfold scale in HXq. apply Z.log2_le_mono in HXq.
      rewrite Z.log2_pow2 in HXq by (unfold unit_exp; lia). exact HXq. }
  set (s := Z.max 0 (Z.log2 (X / q) - 52)).
  assert (Hs0 : 0 <= s <= unit_exp) by (unfold s, unit_exp in *; lia).
  assert (Hsplit : scale = 2 ^ (unit_exp - s) * 2 ^ s).
  { unfold scale. rewrite <- Z.pow_add_r by lia. f_equal. lia. }
  assert (Hps : 0 < 2 ^ s) by (apply Z.pow_pos_nonneg; lia).
  assert (Hpu : 0 < 2 ^ (unit_exp - s)) by (apply Z.pow_pos_nonneg; lia).
  assert (Hr : rhe X (q * 2 ^ s) <= 2 ^ (unit_exp - s)).
  { apply rhe_le; [nia|]. unfold X. rewrite Hsplit. nia. }
  rewrite Hsplit. nia.
Qed.

Lemma of_int_exact (n : Z) : 0 <= n < 2 ^ 53 -> of_int n = n * scale.
Proof.
  intros Hn. unfold of_int, round_ratio.
  replace (n <? 0) with false by (symmetry; apply Z.ltb_ge; lia).
  simpl Bool.eqb. cbv iota.
  rewrite Z.abs_eq by lia. change (Z.abs 1) with 1.
  unfold round_pos. rewrite Z.div_1_r, Z.mul_1_l.
  destruct (Z.eq_dec n 0) as [->|Hn0]; [reflexivity|].
  assert (Hl : Z.log2 (n * scale) = Z.log2 n + unit_exp).
  { unfold scale. rewrite Z.log2_mul_pow2 by (unfold unit_exp; lia). lia. }
  assert (Hln : 0 <= Z.log2 n <= 52).
  { split; [apply Z.log2_nonneg|].
    apply Z.lt_succ_r. apply Z.log2_lt_pow2; lia. }
  rewrite Hl.
  set (s := Z.max 0 (Z.log2 n + unit_exp - 52)).
  assert (Hs : s = Z.log2 n + 1022) by (unfold s, unit_exp; lia).
  assert (Hsplit : scale = 2 ^ (unit_exp - s) * 2 ^ s).
  { unfold scale. rewrite <- Z.pow_add_r by (unfold unit_exp; lia). f_equal. lia. }
  assert (Hps : 0 < 2 ^ s) by (apply Z.pow_pos_nonneg; lia).
  rewrite Hsplit at 1. rewrite Z.mul_assoc, rhe_exact by lia.
  rewrite Hsplit; ring.
Qed.

Lemma one_eq : one = scale.
Proof. unfold one. rewrite of_int_exact; lia. Qed.

Lemma of_int_nonzero (n : Z) : 1 <= n -> of_int n <> 0.
Proof.
  intros Hn. unfold of_int, round_ratio.
  replace (n <? 0) with false by (symmetry; apply Z.ltb_ge; lia).
  simpl Bool.eqb. cbv iota.
  rewrite Z.abs_eq by lia. change (Z.abs 1) with 1.
  unfold round_pos. rewrite Z.div_1_r, Z.mul_1_l.
  pose proof scale_pos as Hsc.
  set (X := n * scale).
  assert (HX : 1 <= X) by (unfold X; nia).
  set (s := Z.max 0 (Z.log2 X - 52)).
  assert (Hps : 0 < 2 ^ s) by (apply Z.pow_pos_nonneg; lia).
  assert (H2s : 2 ^ s <= X).
  { destruct (Z.le_gt_cases (Z.log2 X - 52) 0) as [H|H].
    - unfold s. rewrite Z.max_l by lia. simpl. lia.
    - unfold s. rewrite Z.max_r by lia.
      pose proof (Z.log2_spec X ltac:(lia)) as [Hl _].
      eapply Z.le_trans; [|exact Hl].
      apply Z.pow_le_mono_r; lia. }
  pose proof (rhe_bounds X (2 ^ s) ltac:(lia)) as [Hr _].
  assert (1 <= X / 2 ^ s) by (apply Z.div_le_lower_bound; lia).
  nia.
Qed.

Lemma round_ratio_nonneg (p q : Z) : 0 <= p -> 0 < q -> round_ratio p q = round_pos p q.
Proof.
  intros Hp Hq. unfold round_ratio.
  replace (p <? 0) with false by (symmetry; apply Z.ltb_ge; lia).
  replace (q <? 0) with false by (symmetry; apply Z.ltb_ge; lia).
  simpl Bool.eqb. cbv iota. rewrite !Z.abs_eq by lia. reflexivity.
Qed.

Lemma literal_values :
  half = 2 ^ 1073 /\ three_quarters = 3 * 2 ^ 1072 /\ scale = 2 ^ 1074.
Proof. vm_compute. repeat split; reflexivity. Qed.

Lemma literal_order : 0 < half /\ half < three_quarters /\ three_quarters < one.
Proof. rewrite one_eq. vm_compute. repeat split; reflexivity. Qed.

Lemma str_app_assoc (a b c : string) : (a ++ b) ++ c = a ++ (b ++ c).
Proof. induction a as [|ch a IH]; simpl; [reflexivity|]. rewrite IH. reflexivity. Qed.

(** ** Lemmas on the refresh cycle *)

Lemma memory_util_ok (w : WorkerInfoModel) :
  max_memory w <> 0 -> exists u, memory_util w = Ok u.
Proof.
  intros H. unfold memory_util, int_truediv.
  destruct (max_memory w =? 0) eqn:E; [apply Z.eqb_eq in E; contradiction|eauto].
Qed.

Lemma update_loop_totals (ws : list WorkerInfoModel) :
  forall idx opts t opts' t',
    update_loop idx ws opts t = Ok (opts', t') ->
    fds_total t' = fds_total t + sum_field fds ws /\
    exec_total t' = exec_total t + sum_field executing ws /\
    in_mem_total t' = in_mem_total t + sum_field in_memory ws /\
    ready_total t' = ready_total t + sum_field ready ws /\
    in_flight_total t' = in_flight_total t + sum_field in_flight ws.
Proof.
  induction ws as [|w rest IH]; intros idx opts t opts' t' H; simpl in *.
  - inversion H; subst. lia.
  - destruct (format_mem w) as [m|e]; simpl in H; [|discriminate].
    destruct (memory_util w) as [u|e]; simpl in H; [|discriminate].
    apply IH in H. simpl in H. lia.
Qed.

Lemma update_loop_ok (ws : list WorkerInfoModel) :
  Forall (fun w => max_memory w <> 0) ws ->
  forall idx opts t, exists r, update_loop idx ws opts t = Ok r.
Proof.
  induction 1 as [|w rest Hw _ IH]; intros idx opts t; cbn [update_loop]; [eauto|].
  destruct (memory_util_ok w Hw) as [u Hu].
  assert (Hm : exists m, format_mem w = Ok m)
    by (unfold format_mem; rewrite Hu; eexists; reflexivity).
  destruct Hm as [m Hm]. rewrite Hm. cbn [res_bind]. rewrite Hu. cbn [res_bind]. apply IH.
Qed.

Lemma update_loop_zero_limit (idx : Z) (opts : list (list cell * Z)) (t : totals)
    (w : WorkerInfoModel) (rest : list WorkerInfoModel) :
  max_memory w = 0 -> update_loop idx (w :: rest) opts t = Err ZeroDivisionError.
Proof.
  intros H. cbn [update_loop]. unfold format_mem, memory_util, int_truediv.
  rewrite H. reflexivity.
Qed.

Lemma scene_update_last_frame (fetch : res worker_map) (t : Z) (s : scene) :
  last_frame (snd (scene_update fetch t s)) =
  if refresh_due (last_frame s) t then t else last_frame s.
Proof.
  unfold scene_update, bindM, gets, modify, lift, refreshM, ret.
  cbn -[update_loop rollup_row manager_refresh refresh_due].
  destruct (refresh_due (last_frame s) t); [|reflexivity].
  destruct (manager_refresh fetch) as [ws|e]; cbn -[update_loop rollup_row]; [|reflexivity].
  destruct (update_loop 0 ws [] zero_totals) as [[opts t']|e];
    cbn -[rollup_row]; [|reflexivity].
  destruct (rollup_row (worker_count ws) t'); reflexivity.
Qed.

Lemma run_ticks_schedule (fetch : res worker_map) (ticks : list Z) :
  forall s, fst (run_ticks fetch ticks s) = schedule (last_frame s) ticks.
Proof.
  induction ticks as [|t rest IH]; intros s; [reflexivity|].
  cbn [run_ticks schedule].
  specialize (IH (snd (scene_update fetch t s))).
  rewrite scene_update_last_frame in IH.
  destruct (run_ticks fetch rest (snd (scene_update fetch t s))) as [fs s''].
  cbn [fst] in *. destruct (refresh_due (last_frame s) t); cbn [fst]; congruence.
Qed.

Lemma from_workers_addrs (wi : worker_map) :
  forall ws, from_workers wi = Ok ws -> map addr ws = map fst wi.
Proof.
  induction wi as [|[a info] rest IH]; intros ws H; simpl in H.
  - inversion H; reflexivity.
  - destruct (from_worker a info) as [w|e] eqn:Hw; simpl in H; [|discriminate].
    destruct (from_workers rest) as [ws'|e]; simpl in H; [|discriminate].
    inversion H; subst. simpl. f_equal; [|auto].
    unfold from_worker in Hw.
    destruct (getitem "memory_limit" (i_memory_limit info)); simpl in Hw; [|discriminate].
    repeat match type of Hw with
      | context [metric info ?k ?f] =>
          destruct (metric info k f); simpl in Hw; [|discriminate]
      end.
    inversion Hw; reflexivity.
Qed.

Lemma from_workers_err (wi : worker_map) (a : string) (info : raw_info) (e : exn) :
  In (a, info) wi -> from_worker a info = Err e ->
  exists e', from_workers wi = Err e'.
Proof.
  induction wi as [|[a' info'] rest IH]; intros Hin He; [destruct Hin|].
  simpl. destruct Hin as [Heq|Hin].
  - inversion Heq; subst. rewrite He. simpl. eauto.
  - destruct (from_worker a' info'); simpl; [|eauto].
    destruct (IH Hin He) as [e' ->]. simpl. eauto.
Qed.

Lemma from_worker_ok_iff (a : string) (info : raw_info) :
  has_all_fields info = true <-> exists w, from_worker a info = Ok w.
Proof.
  destruct info as [ml om].
  destruct ml as [ml|], om as [[mem c nf ex im rd ifl]|];
    [destruct mem, c, nf, ex, im, rd, ifl| | |];
    unfold has_all_fields, from_worker, metric; simpl;
    split; try discriminate; try (intros [w Hw]; discriminate); eauto.
Qed.

Lemma from_worker_limit (a : string) (info : raw_info) (w : WorkerInfoModel) :
  from_worker a info = Ok w -> i_memory_limit info = Some (max_memory w).
Proof.
  destruct info as [ml om].
  destruct ml as [ml|], om as [[mem c nf ex im rd ifl]|];
    [destruct mem, c, nf, ex, im, rd, ifl| | |];
    unfold from_worker, metric; simpl; try discriminate.
  intros H; inversion H; reflexivity.
Qed.

Lemma byte_count_small_none (n : Z) :
  0 <= n <= 1000000 -> get_human_readable_byte_count n = None.
Proof.
  intros Hn. pose proof scale_pos as Hs.
  unfold get_human_readable_byte_count, fdiv_lit, f1e9, f1e6, flt_lt. cbv zeta.
  rewrite (of_int_exact n), (of_int_exact 1000000000), (of_int_exact 1000000) by lia.
  rewrite !round_ratio_nonneg by nia.
  pose proof (round_pos_le_scale (n * scale) (1000000000 * scale)) as Hg.
  pose proof (round_pos_le_scale (n * scale) (1000000 * scale)) as Hm.
  rewrite one_eq.
  replace (scale <? round_pos (n * scale) (1000000000 * scale)) with false
    by (symmetry; apply Z.ltb_ge; apply Hg; nia).
  replace (scale <? round_pos (n * scale) (1000000 * scale)) with false
    by (symmetry; apply Z.ltb_ge; apply Hm; nia).
  reflexivity.
Qed.

Lemma from_worker_err_key (a : string) (info : raw_info) (e : exn) :
  from_worker a info = Err e -> exists key, e = KeyError key.
Proof.
  destruct info as [ml om].
  destruct ml as [ml|], om as [[mem c nf ex im rd ifl]|];
    [destruct mem, c, nf, ex, im, rd, ifl| | |];
    unfold from_worker, metric; simpl; intros H; try discriminate;
    inversion H; eauto.
Qed.

Lemma from_workers_err_key (wi : worker_map) (e : exn) :
  from_workers wi = Err e -> exists key, e = KeyError key.
Proof.
  induction wi as [|[a info] rest IH]; simpl; intros H; [discriminate|].
  destruct (from_worker a info) as [w|e'] eqn:Hw; simpl in H.
  - destruct (from_workers rest) as [ws|e'']; simpl in H; [discriminate|].
    inversion H; subst. apply IH. reflexivity.
  - inversion H; subst. exact (from_worker_err_key a info e Hw).
Qed.

(** ** Claims *)

(** C1 (code bug).  When the scheduler reports no workers on a refresh
    tick, [_update] evaluates [cpu_total / num_workers] with
    [num_workers = 0] and raises [ZeroDivisionError]: the rollup row is
    never computed (it keeps its previous value), instead of showing
    averages and sums of 0. *)
Theorem C1_empty_fetch_raises (s : scene) (frame_no : Z) :
  refresh_due (last_frame s) frame_no = true ->
  scene_update (Ok []) frame_no s =
  (Err ZeroDivisionError,
   set_worker_options [] (set_model_workers [] (set_last_frame frame_no s))).
Proof.
  intros Hdue.
  unfold scene_update, bindM, gets, modify, lift, refreshM.
  cbn -[refresh_due rollup_row]. rewrite Hdue.
  cbn -[rollup_row]. unfold rollup_row, fdiv, worker_count.
  cbn -[of_int]. rewrite (of_int_exact 0) by lia. reflexivity.
Qed.

Lemma C1_witness :
  refresh_due 0 0 = true /\
  scene_update (Ok []) 0 (init_scene []) =
  (Err ZeroDivisionError,
   set_worker_options [] (set_model_workers [] (set_last_frame 0 (init_scene [])))).
Proof. split; [reflexivity | apply (C1_empty_fetch_raises (init_scene []) 0); reflexivity]. Defined.

(** C2, counterexample.  A failing scheduler call, and an entry missing its
    [metrics] key, both make [_update] raise: the exception propagates out
    of the refresh cycle; there is no [SourceUnavailable] and no flag. *)
Lemma C2_failure_propagates :
  fst (scene_update (Err SourceError) 0 (init_scene [])) = Err SourceError /\
  fst (scene_update (Ok [("tcp://10.0.0.1:4000", {| i_memory_limit := Some 1000000000;
                                                    i_metrics := None |})])
                    0 (init_scene [])) = Err (KeyError "metrics").
Proof. split; reflexivity. Qed.

(** C2 (amended).  On a refresh tick where the scheduler call fails or an
    entry lacks a required key, [_update] raises that same exception; the
    manager's worker list and both widgets' rows keep their previous values,
    and only [_last_frame] has moved to the current tick, exactly where a
    refresh with any other scheduler answer leaves it: the failure does not
    change on which later ticks a refresh is due. *)
Theorem C2_failed_refresh_keeps_snapshot (fetch : res worker_map) (s : scene)
    (frame_no : Z) (e : exn) :
  refresh_due (last_frame s) frame_no = true ->
  manager_refresh fetch = Err e ->
  scene_update fetch frame_no s = (Err e, set_last_frame frame_no s) /\
  (forall fetch' : res worker_map,
     last_frame (snd (scene_update fetch' frame_no s)) =
     last_frame (snd (scene_update fetch frame_no s))).
Proof.
  intros Hdue Hf. split.
  - unfold scene_update, bindM, gets, modify, lift, refreshM.
    cbn -[refresh_due manager_refresh]. rewrite Hdue. rewrite Hf. reflexivity.
  - intros fetch'. rewrite !scene_update_last_frame. reflexivity.
Qed.

Lemma C2_witness :
  let s := {| last_frame := 40; model_workers := [sample_worker "tcp://10.0.0.1:4000" 500000000 1000000000 (of_int 50)];
              worker_options := []; rollup_options := [(["1"], 0)] |} in
  refresh_due (last_frame s) 60 = true /\
  manager_refresh (Err SourceError) = Err SourceError /\
  scene_update (Err SourceError) 60 s = (Err SourceError, set_last_frame 60 s) /\
  last_frame (snd (scene_update (Ok []) 60 s)) =
  last_frame (snd (scene_update (Err SourceError) 60 s)).
Proof.
  intros s.
  assert (Hdue : refresh_due (last_frame s) 60 = true) by reflexivity.
  assert (Hf : manager_refresh (Err SourceError) = Err SourceError) by reflexivity.
  destruct (C2_failed_refresh_keeps_snapshot (Err SourceError) s 60 SourceError Hdue Hf)
    as [Heq Hlast].
  split; [exact Hdue|]. split; [exact Hf|]. split; [exact Heq|]. exact (Hlast (Ok [])).
Defined.

(** C3 (code bug).  The first-tick test [self._last_frame == 0] stays true
    after a refresh on tick 0, since that refresh stores 0 again: on the
    ticks 0, 1, ..., 61 the scene refreshes on 0, 1, 21, 41 and 61 (not on
    0, 20, 40, 60), whatever the scheduler answers. *)
Theorem C3_refresh_ticks_from_zero (fetch : res worker_map) (ws : list WorkerInfoModel) :
  fst (run_ticks fetch (ticks_upto 61) (init_scene ws)) = [0; 1; 21; 41; 61].
Proof. rewrite run_ticks_schedule. vm_compute. reflexivity. Qed.

(** C4, counterexample.  Rows follow the iteration order of the scheduler's
    workers dict; nothing sorts them by address. *)
Lemma C4_rows_in_dict_order :
  manager_refresh (Ok [("tcp://10.0.0.2:4000", sample_info 1000000000 500000000);
                       ("tcp://10.0.0.1:4000", sample_info 1000000000 500000000)]) =
  Ok [sample_worker "tcp://10.0.0.2:4000" 500000000 1000000000 (of_int 50);
      sample_worker "tcp://10.0.0.1:4000" 500000000 1000000000 (of_int 50)] /\
  String.compare "tcp://10.0.0.1:4000" "tcp://10.0.0.2:4000" = Lt.
Proof. split; vm_compute; reflexivity. Qed.

(** C4 (amended).  The Worker Records come in the iteration order of the
    workers mapping the scheduler returned, one per entry. *)
Theorem C4_rows_follow_mapping_order (wi : worker_map) (ws : list WorkerInfoModel) :
  manager_refresh (Ok wi) = Ok ws -> map addr ws = map fst wi.
Proof. apply from_workers_addrs. Qed.

Lemma C4_witness :
  manager_refresh (Ok [("tcp://10.0.0.2:4000", sample_info 1000000000 500000000)]) =
    Ok [sample_worker "tcp://10.0.0.2:4000" 500000000 1000000000 (of_int 50)] /\
  map addr [sample_worker "tcp://10.0.0.2:4000" 500000000 1000000000 (of_int 50)] =
    map fst [("tcp://10.0.0.2:4000", sample_info 1000000000 500000000)].
Proof.
  assert (H : manager_refresh (Ok [("tcp://10.0.0.2:4000", sample_info 1000000000 500000000)]) =
    Ok [sample_worker "tcp://10.0.0.2:4000" 500000000 1000000000 (of_int 50)])
    by (vm_compute; reflexivity).
  split; [exact H | exact (C4_rows_follow_mapping_order _ _ H)].
Defined.

(** C5, counterexample.  At [memory_used = 750,000,000] and
    [memory_limit = 1,000,000,000] the limit renders as ["1000.00 MB"]
    (the GB test [1e9 / 1e9 > 1] is false), so neither memory formatter
    produces ["75.00% (750.00 MB/1.00 GB)"]. *)
Lemma C5_example_string :
  format_mem (sample_worker "tcp://10.0.0.1:4000" 750000000 1000000000 0) =
    Ok ("${1}" ++ "75.00% (750.00 MB/1000.00 MB)") /\
  get_memory_label (sample_worker "tcp://10.0.0.1:4000" 750000000 1000000000 0) =
    Ok ("75.00% (750.00 MB/1000.00 MB)", Some "high_util") /\
  "75.00% (750.00 MB/1000.00 MB)" <> "75.00% (750.00 MB/1.00 GB)".
Proof. split; [|split]; [vm_compute; reflexivity | vm_compute; reflexivity | discriminate]. Qed.

(** C5 (amended).  [_format_mem] marks utilisation [u] with the medium
    markup when [0.5 <= u < 0.75], the high markup when [0.75 <= u <= 1.0],
    and no markup when [u == 0] or [u > 1.0]; the markup is followed by the
    text.  For 750,000,000 of 1,000,000,000 bytes the cell is high and reads
    ["75.00% (750.00 MB/1000.00 MB)"]. *)
Theorem C5_memory_tiers :
  (forall u, flt_le half u && flt_lt u three_quarters = true ->
             markup_tier (mem_colour u) = Medium) /\
  (forall u, flt_le three_quarters u && flt_le u one = true ->
             markup_tier (mem_colour u) = High) /\
  (forall u, u = 0 \/ flt_lt one u = true -> markup_tier (mem_colour u) = Neutral) /\
  (forall w u, memory_util w = Ok u -> exists text, format_mem w = Ok (mem_colour u ++ text)) /\
  (exists u, memory_util (sample_worker "tcp://10.0.0.1:4000" 750000000 1000000000 0) = Ok u /\
             markup_tier (mem_colour u) = High /\
             format_mem (sample_worker "tcp://10.0.0.1:4000" 750000000 1000000000 0) =
               Ok (mem_colour u ++ "75.00% (750.00 MB/1000.00 MB)")).
Proof.
  pose proof literal_order as (H0 & H1 & H2).
  split; [|split; [|split; [|split]]]; [unfold mem_colour, flt_le, flt_lt in *..| |].
  - intros u Hu. rewrite Hu. reflexivity.
  - intros u Hu. apply andb_prop in Hu as [Ha Hb].
    rewrite Ha, Hb. replace (u <? three_quarters) with false
      by (symmetry; apply Z.ltb_ge; apply Z.leb_le in Ha; lia).
    rewrite andb_false_r. reflexivity.
  - intros u [->|Hu].
    + replace (half <=? 0) with false by (symmetry; apply Z.leb_gt; lia).
      replace (three_quarters <=? 0) with false by (symmetry; apply Z.leb_gt; lia).
      reflexivity.
    + apply Z.ltb_lt in Hu.
      replace (u <? three_quarters) with false by (symmetry; apply Z.ltb_ge; lia).
      replace (u <=? one) with false by (symmetry; apply Z.leb_gt; lia).
      rewrite !andb_false_r. reflexivity.
  - intros w u Hu. unfold format_mem. rewrite Hu. cbn [res_bind].
    eexists. reflexivity.
  - exists three_quarters. vm_compute. repeat split; reflexivity.
Qed.

Lemma C5_witness :
  markup_tier (mem_colour three_quarters) = High /\
  markup_tier (mem_colour half) = Medium /\
  markup_tier (mem_colour 0) = Neutral.
Proof.
  destruct C5_memory_tiers as (Hm & Hh & Hn & _).
  split; [|split].
  - apply Hh. rewrite one_eq. vm_compute. reflexivity.
  - apply Hm. vm_compute. reflexivity.
  - apply Hn. left. reflexivity.
Defined.

(** C6, counterexample.  One entry missing its [metrics] key aborts the
    whole refresh (the valid entry yields no record either), and an entry
    with [memory_limit = 0] is kept as a record. *)
Lemma C6_missing_key_aborts_refresh :
  manager_refresh (Ok [("tcp://10.0.0.1:4000", sample_info 1000000000 500000000);
                       ("tcp://10.0.0.2:4000", {| i_memory_limit := Some 1000000000;
                                                  i_metrics := None |})]) =
    Err (KeyError "metrics") /\
  manager_refresh (Ok [("tcp://10.0.0.1:4000", sample_info 0 500000000)]) =
    Ok [sample_worker "tcp://10.0.0.1:4000" 500000000 0 (of_int 50)].
Proof. split; vm_compute; reflexivity. Qed.

(** C6 (amended).  Entries are not validated one by one: an entry lacking
    a required key makes the whole refresh raise [KeyError], and an entry with every
    key present becomes a record whatever its [memory_limit] (zero
    included); there is no skipped count. *)
Theorem C6_no_entry_validation :
  (forall wi a info, In (a, info) wi -> has_all_fields info = false ->
     exists key, manager_refresh (Ok wi) = Err (KeyError key)) /\
  (forall a info, has_all_fields info = true ->
     exists w, from_worker a info = Ok w /\ i_memory_limit info = Some (max_memory w)).
Proof.
  split.
  - intros wi a info Hin Hf.
    destruct (from_worker a info) as [w|e] eqn:Hw.
    + assert (has_all_fields info = true) by (apply (from_worker_ok_iff a); eauto).
      congruence.
    + destruct (from_workers_err wi a info e Hin Hw) as [e' He'].
      destruct (from_workers_err_key wi e' He') as [key ->].
      exists key. exact He'.
  - intros a info Hf. apply (from_worker_ok_iff a) in Hf as [w Hw].
    exists w. split; [exact Hw | exact (from_worker_limit a info w Hw)].
Qed.

Lemma C6_witness :
  (exists key, manager_refresh (Ok [("tcp://10.0.0.2:4000", {| i_memory_limit := Some 1000000000;
                                                               i_metrics := None |})]) =
               Err (KeyError key)) /\
  (exists w, from_worker "tcp://10.0.0.1:4000" (sample_info 0 500000000) = Ok w /\
             Some 0 = Some (max_memory w)).
Proof.
  destruct C6_no_entry_validation as [Ha Hb]. split.
  - apply (Ha _ "tcp://10.0.0.2:4000" {| i_memory_limit := Some 1000000000; i_metrics := None |}).
    + left. reflexivity.
    + reflexivity.
  - apply (Hb "tcp://10.0.0.1:4000" (sample_info 0 500000000)). reflexivity.
Defined.

(** C7.  The CPU cell's markup gives tier neutral below 40, medium on
    [40, 75), high on [75, 100] and a fourth tier, overloaded, above 100;
    150 is overloaded and 90 is high. *)
Theorem C7_cpu_tiers :
  (forall w, exists c, format_cpu w = CpuCell c (cpu w) /\
                       markup_tier c = cpu_tier_spec (cpu w)) /\
  markup_tier (cpu_colour (of_int 150)) = Overloaded /\
  markup_tier (cpu_colour (of_int 90)) = High /\
  Overloaded <> High.
Proof.
  split; [|split; [|split]]; [| vm_compute; reflexivity .. | discriminate].
  intros w. exists (cpu_colour (cpu w)). split; [reflexivity|].
  unfold cpu_colour, cpu_tier_spec, flt_le, flt_lt.
  rewrite (of_int_exact 40), (of_int_exact 75), (of_int_exact 100) by lia.
  pose proof scale_pos as Hs. set (v := cpu w).
  destruct (Z.ltb_spec v (40 * scale)), (Z.leb_spec (40 * scale) v),
           (Z.ltb_spec v (75 * scale)), (Z.leb_spec (75 * scale) v),
           (Z.leb_spec v (100 * scale)), (Z.ltb_spec (100 * scale) v);
    cbn [andb]; try reflexivity; nia.
Qed.

(** C8.  The byte formatter renders [f'{n/1e9:.2f} GB'] when [n / 1e9 > 1],
    and otherwise [f'{n/1e6:.2f} MB'] when [n / 1e6 > 1];
    1,500,000,000 gives ["1.50 GB"] and 2,500,000 gives ["2.50 MB"]. *)
Theorem C8_byte_formatter :
  (forall n, flt_lt one (fdiv_lit (of_int n) f1e9) = true ->
     get_human_readable_byte_count n = Some (fmt_2f (fdiv_lit (of_int n) f1e9) ++ " GB")) /\
  (forall n, flt_lt one (fdiv_lit (of_int n) f1e9) = false ->
     flt_lt one (fdiv_lit (of_int n) f1e6) = true ->
     get_human_readable_byte_count n = Some (fmt_2f (fdiv_lit (of_int n) f1e6) ++ " MB")) /\
  get_human_readable_byte_count 1500000000 = Some "1.50 GB" /\
  get_human_readable_byte_count 2500000 = Some "2.50 MB".
Proof.
  split; [|split; [|split]].
  - intros n H. unfold get_human_readable_byte_count. cbv zeta. rewrite H. reflexivity.
  - intros n H1 H2. unfold get_human_readable_byte_count. cbv zeta.
    rewrite H1, H2. reflexivity.
  - vm_compute. reflexivity.
  - vm_compute. reflexivity.
Qed.

Lemma C8_witness :
  flt_lt one (fdiv_lit (of_int 1500000000) f1e9) = true /\
  get_human_readable_byte_count 1500000000 =
    Some (fmt_2f (fdiv_lit (of_int 1500000000) f1e9) ++ " GB") /\
  flt_lt one (fdiv_lit (of_int 2500000) f1e9) = false /\
  flt_lt one (fdiv_lit (of_int 2500000) f1e6) = true /\
  get_human_readable_byte_count 2500000 =
    Some (fmt_2f (fdiv_lit (of_int 2500000) f1e6) ++ " MB").
Proof.
  destruct C8_byte_formatter as (Hg & Hm & _).
  split; [vm_compute; reflexivity|]. split; [apply Hg; vm_compute; reflexivity|].
  split; [vm_compute; reflexivity|]. split; [vm_compute; reflexivity|].
  apply Hm; vm_compute; reflexivity.
Defined.

(** C9 (code bug).  With no workers the refresh raises [ZeroDivisionError]
    before any rollup row exists (the defect of C1).  With N >= 1 workers
    whose limits are nonzero, the rollup row built from the current records
    holds [str(N)] and, for each of fds, executing, in_memory, ready and
    in_flight, the sum of that field over exactly these records, whatever
    the scene held before. *)
Theorem C9_rollup_from_current_records :
  fst (scene_update (Ok []) 0 (init_scene [])) = Err ZeroDivisionError /\
  (forall fetch frame_no s ws,
     refresh_due (last_frame s) frame_no = true ->
     manager_refresh fetch = Ok ws -> ws <> [] ->
     Forall (fun w => max_memory w <> 0) ws ->
     exists avg_cpu avg_mem,
       rollup_options (snd (scene_update fetch frame_no s)) =
       [([str_int (worker_count ws); avg_cpu; avg_mem;
          str_int (sum_field fds ws); str_int (sum_field executing ws);
          str_int (sum_field in_memory ws); str_int (sum_field ready ws);
          str_int (sum_field in_flight ws)], 0)]).
Proof.
  split; [vm_compute; reflexivity|].
  intros fetch frame_no s ws Hdue Hf Hne Hall.
  unfold scene_update, bindM, gets, modify, lift, refreshM.
  cbn -[refresh_due manager_refresh update_loop rollup_row]. rewrite Hdue, Hf.
  cbn -[update_loop rollup_row].
  destruct (update_loop_ok ws Hall 0 [] zero_totals) as [[opts t] Hu]. rewrite Hu.
  pose proof (update_loop_totals _ _ _ _ _ _ Hu) as (Hfd & Hex & Him & Hrd & Hif).
  assert (HN : of_int (worker_count ws) <> 0).
  { apply of_int_nonzero. destruct ws as [|w ws']; [contradiction|].
    unfold worker_count. cbn [List.length]. lia. }
  unfold rollup_row, fdiv.
  destruct (of_int (worker_count ws) =? 0) eqn:E; [apply Z.eqb_eq in E; contradiction|].
  cbn -[str_int fmt_2f worker_count].
  rewrite Hfd, Hex, Him, Hrd, Hif. do 2 eexists. reflexivity.
Qed.

Lemma C9_witness :
  refresh_due (last_frame (init_scene [])) 0 = true /\
  manager_refresh (Ok [("tcp://10.0.0.1:4000", sample_info 1000000000 500000000)]) =
    Ok [sample_worker "tcp://10.0.0.1:4000" 500000000 1000000000 (of_int 50)] /\
  exists avg_cpu avg_mem,
    rollup_options (snd (scene_update (Ok [("tcp://10.0.0.1:4000", sample_info 1000000000 500000000)])
                                      0 (init_scene []))) =
    [([str_int 1; avg_cpu; avg_mem; str_int 30; str_int 2; str_int 5; str_int 1; str_int 0], 0)].
Proof.
  assert (Hf : manager_refresh (Ok [("tcp://10.0.0.1:4000", sample_info 1000000000 500000000)]) =
    Ok [sample_worker "tcp://10.0.0.1:4000" 500000000 1000000000 (of_int 50)])
    by (vm_compute; reflexivity).
  split; [reflexivity|]. split; [exact Hf|].
  destruct C9_rollup_from_current_records as [_ H].
  apply (H _ 0 (init_scene []) _ eq_refl Hf).
  - discriminate.
  - repeat constructor. cbn. lia.
Defined.

(** C10.  Counts of at most 1,000,000 bytes make the byte formatter fall
    off its end and return [None], which a memory cell renders as the text
    ["None"]; exactly 1,000,000,000 bytes fails the strict GB test and
    renders as ["1000.00 MB"]. *)
Theorem C10_small_counts_render_None :
  (forall n, 0 <= n <= 1000000 -> get_human_readable_byte_count n = None) /\
  (forall w, 0 <= current_memory w <= 1000000 -> max_memory w <> 0 ->
     exists pre post, format_mem w = Ok (pre ++ "None" ++ post)) /\
  get_human_readable_byte_count 1000000000 = Some "1000.00 MB".
Proof.
  split; [exact byte_count_small_none|]. split; [|vm_compute; reflexivity].
  intros w Hc Hm. destruct (memory_util_ok w Hm) as [u Hu].
  unfold format_mem. rewrite Hu. cbn [res_bind].
  rewrite (byte_count_small_none (current_memory w) Hc).
  eexists (mem_colour u ++ fmt_2f (fmul u (of_int 100)) ++ "% ("), _.
  cbn [py_str_opt]. rewrite !str_app_assoc. reflexivity.
Qed.

Lemma C10_witness :
  get_human_readable_byte_count 500000 = None /\
  exists pre post,
    format_mem (sample_worker "tcp://10.0.0.1:4000" 500000 1000000000 0) =
    Ok (pre ++ "None" ++ post).
Proof.
  destruct C10_small_counts_render_None as (H1 & H2 & _).
  split; [apply H1; lia|].
  apply H2; cbn; lia.
Defined.

(** ** Further properties of the code *)

Ltac bools_to_props :=
  repeat match goal with
  | H : (_ || _)%bool = true |- _ => apply orb_true_iff in H
  | H : (_ || _)%bool = false |- _ => apply orb_false_iff in H
  | H : (_ && _)%bool = true |- _ => apply andb_true_iff in H
  | H : (_ && _)%bool = false |- _ => apply andb_false_iff in H
  | H : (_ =? _) = true |- _ => apply Z.eqb_eq in H
  | H : (_ =? _) = false |- _ => apply Z.eqb_neq in H
  | H : (_ <=? _) = true |- _ => apply Z.leb_le in H
  | H : (_ <=? _) = false |- _ => apply Z.leb_gt in H
  | H : (_ <? _) = true |- _ => apply Z.ltb_lt in H
  | H : (_ <? _) = false |- _ => apply Z.ltb_ge in H
  | H : _ /\ _ |- _ => destruct H
  | H : _ \/ _ |- _ => destruct H
  end.

Lemma schedule_app (l1 l2 : list Z) :
  forall last, schedule last (l1 ++ l2)%list = (schedule last l1 ++ schedule (schedule_last last l1) l2)%list.
Proof.
  induction l1 as [|t rest IH]; intros last; [reflexivity|].
  cbn [app schedule schedule_last]. destruct (refresh_due last t); rewrite IH; reflexivity.
Qed.

Lemma schedule_last_app (l1 l2 : list Z) :
  forall last, schedule_last last (l1 ++ l2)%list = schedule_last (schedule_last last l1) l2.
Proof. induction l1 as [|t rest IH]; intros last; [reflexivity|]. apply IH. Qed.

Lemma ticks_upto_S (n : nat) : ticks_upto (S n) = (ticks_upto n ++ [Z.of_nat (S n)])%list.
Proof. unfold ticks_upto. rewrite (seq_S (S n)), map_app. reflexivity. Qed.

Lemma refresh_due_step (m : Z) : 0 <= m ->
  refresh_due (if m =? 0 then 0 else m - (m - 1) mod 20) (m + 1) = fires (m + 1) /\
  (if refresh_due (if m =? 0 then 0 else m - (m - 1) mod 20) (m + 1) then m + 1
   else (if m =? 0 then 0 else m - (m - 1) mod 20)) =
    (if m + 1 =? 0 then 0 else (m + 1) - (m + 1 - 1) mod 20).
Proof.
  intros Hm. unfold refresh_due, fires, frame_update_count.
  pose proof (Z.mod_pos_bound (m - 1) 20 ltac:(lia)).
  pose proof (Z.mod_pos_bound m 20 ltac:(lia)).
  destruct (Z.eqb_spec m 0) as [E|E].
  - subst m. vm_compute. split; reflexivity.
  - assert (Hmm : m mod 20 = ((m - 1) mod 20 + 1) mod 20).
    { replace m with (m - 1 + 1) at 1 by lia. rewrite Z.add_mod by lia.
      rewrite (Z.mod_small 1 20) by lia. reflexivity. }
    replace (m + 1 - 1) with m by lia.
    destruct (Z.eqb_spec ((m - 1) mod 20) 19) as [F|F].
    + rewrite F in Hmm. change ((19 + 1) mod 20) with 0 in Hmm.
      assert (19 <= m - 1) by (pose proof (Z.mod_le (m - 1) 20 ltac:(lia) ltac:(lia)); lia).
      replace (20 <=? m + 1 - (m - (m - 1) mod 20)) with true by (symmetry; apply Z.leb_le; lia).
      rewrite Hmm. cbn [orb].
      replace (m + 1 =? 0) with false by (symmetry; apply Z.eqb_neq; lia).
      replace (m + 1 =? 1) with false by (symmetry; apply Z.eqb_neq; lia).
      replace (21 <=? m + 1) with true by (symmetry; apply Z.leb_le; lia).
      cbn. split; [reflexivity|]. lia.
    + assert (Hr : m mod 20 = (m - 1) mod 20 + 1) by (rewrite Hmm; apply Z.mod_small; lia).
      assert (Hle : (m - 1) mod 20 <= m - 1) by (apply Z.mod_le; lia).
      replace (20 <=? m + 1 - (m - (m - 1) mod 20)) with false by (symmetry; apply Z.leb_gt; lia).
      replace (m - (m - 1) mod 20 =? 0) with false by (symmetry; apply Z.eqb_neq; lia).
      replace (m + 1 =? 0) with false by (symmetry; apply Z.eqb_neq; lia).
      replace (m + 1 =? 1) with false by (symmetry; apply Z.eqb_neq; lia).
      replace (m mod 20 =? 0) with false by (symmetry; apply Z.eqb_neq; lia).
      rewrite andb_false_r. cbn. split; [reflexivity|]. lia.
Qed.

Lemma schedule_upto (n : nat) :
  schedule 0 (ticks_upto n) = filter fires (ticks_upto n) /\
  schedule_last 0 (ticks_upto n) =
    (if Z.of_nat n =? 0 then 0 else Z.of_nat n - (Z.of_nat n - 1) mod 20).
Proof.
  induction n as [|n [IH1 IH2]]; [vm_compute; split; reflexivity|].
  rewrite ticks_upto_S, schedule_app, schedule_last_app, filter_app, IH1, IH2.
  destruct (refresh_due_step (Z.of_nat n) ltac:(lia)) as [Hd Hl].
  replace (Z.of_nat (S n)) with (Z.of_nat n + 1) by lia.
  cbn [schedule schedule_last filter]. rewrite Hd. split.
  - destruct (fires (Z.of_nat n + 1)); reflexivity.
  - rewrite <- Hd. exact Hl.
Qed.

(** X: on the ticks 0, 1, ..., n a fresh scene refreshes exactly on 0, on 1,
    and on the ticks t >= 21 with t = 1 (mod 20), whatever the scheduler
    answers. *)
Theorem X_refresh_ticks (fetch : res worker_map) (ws : list WorkerInfoModel) (n : nat) :
  fst (run_ticks fetch (ticks_upto n) (init_scene ws)) = filter fires (ticks_upto n).
Proof. rewrite run_ticks_schedule. apply schedule_upto. Qed.

Lemma round_pos_gt_scale (p q : Z) :
  0 < q -> 0 <= p -> q * 2 ^ 52 + q <= p * (2 ^ 52 - 1) -> scale < round_pos p q.
Proof.
  intros Hq Hp Hpq. unfold round_pos.
  pose proof scale_pos as Hs.
  assert (HKs : 2 ^ 52 <= scale)
    by (unfold scale, unit_exp; apply Z.pow_le_mono_r; lia).
  set (K := 2 ^ 52) in *. assert (HK : K = 4503599627370496) by reflexivity.
  set (X := p * scale). set (Y := X / q).
  assert (Ha : q * Y <= X < q * Y + q).
  { pose proof (Z.div_mod X q ltac:(lia)). pose proof (Z.mod_pos_bound X q Hq). lia. }
  assert (Hb : K * scale < Y * (K - 1)).
  { assert (q * (K * scale) < q * (Y * (K - 1))).
    { assert (H1 : (X - q) * (K - 1) < q * Y * (K - 1)) by nia.
      assert (H2 : (q * K + q) * scale <= X * (K - 1)) by (unfold X; nia).
      nia. }
    nia. }
  assert (Hc : scale <= Y) by nia.
  set (s := Z.max 0 (Z.log2 Y - 52)).
  assert (Hps : 0 < 2 ^ s) by (apply Z.pow_pos_nonneg; lia).
  assert (Hd : 2 ^ s * K <= Y).
  { destruct (Z.le_gt_cases (Z.log2 Y - 52) 0) as [H|H].
    - unfold s. rewrite Z.max_l by lia. simpl. lia.
    - unfold s. rewrite Z.max_r by lia. unfold K.
      rewrite <- Z.pow_add_r by lia. replace (Z.log2 Y - 52 + 52) with (Z.log2 Y) by lia.
      apply Z.log2_spec. lia. }
  pose proof (rhe_bounds X (q * 2 ^ s) ltac:(nia)) as [He _].
  rewrite <- Z.div_div in He by lia. fold Y in He.
  assert (Hf : Y - 2 ^ s < Y / 2 ^ s * 2 ^ s).
  { pose proof (Z.div_mod Y (2 ^ s) ltac:(lia)). pose proof (Z.mod_pos_bound Y (2 ^ s) Hps). lia. }
  nia.
Qed.

(** X: for byte counts below 2^53 the formatter's float tests reduce to
    exact integer thresholds: more than 1,000,000,000 bytes render in GB,
    and from 1,000,001 to 1,000,000,000 bytes render in MB. *)
Theorem X_byte_count_thresholds (n : Z) :
  0 <= n < 2 ^ 53 ->
  (1000000000 < n ->
     get_human_readable_byte_count n = Some (fmt_2f (fdiv_lit (of_int n) f1e9) ++ " GB")) /\
  (1000000 < n <= 1000000000 ->
     get_human_readable_byte_count n = Some (fmt_2f (fdiv_lit (of_int n) f1e6) ++ " MB")).
Proof.
  intros Hn. pose proof scale_pos as Hs.
  unfold get_human_readable_byte_count, fdiv_lit, f1e9, f1e6, flt_lt. cbv zeta.
  rewrite (of_int_exact n), (of_int_exact 1000000000), (of_int_exact 1000000) by lia.
  rewrite !round_ratio_nonneg by nia. rewrite one_eq.
  split.
  - intros Hg.
    replace (scale <? round_pos (n * scale) (1000000000 * scale)) with true; [reflexivity|].
    symmetry. apply Z.ltb_lt. apply round_pos_gt_scale; [nia|nia|].
    assert (1000000000 * 2 ^ 52 + 1000000000 <= n * (2 ^ 52 - 1)) by lia. nia.
  - intros [Hm1 Hm2].
    replace (scale <? round_pos (n * scale) (1000000000 * scale)) with false
      by (symmetry; apply Z.ltb_ge; apply round_pos_le_scale; nia).
    replace (scale <? round_pos (n * scale) (1000000 * scale)) with true; [reflexivity|].
    symmetry. apply Z.ltb_lt. apply round_pos_gt_scale; [nia|nia|].
    assert (1000000 * 2 ^ 52 + 1000000 <= n * (2 ^ 52 - 1)) by lia. nia.
Qed.

Lemma X_byte_count_thresholds_witness :
  (0 <= 2500000 < 2 ^ 53) /\
  get_human_readable_byte_count 2500000 =
    Some (fmt_2f (fdiv_lit (of_int 2500000) f1e6) ++ " MB").
Proof.
  split; [lia|]. apply (X_byte_count_thresholds 2500000); lia.
Defined.

Lemma round_pos_zero (q : Z) : 0 < q -> round_pos 0 q = 0.
Proof.
  intros Hq. unfold round_pos. rewrite Z.mul_0_l, Z.div_0_l by lia.
  change (Z.max 0 (Z.log2 0 - 52)) with 0. change (2 ^ 0) with 1.
  rewrite !Z.mul_1_r. unfold rhe. rewrite Z.div_0_l, Z.mod_0_l by lia.
  replace (2 * 0 <? q) with true by (symmetry; apply Z.ltb_lt; lia). reflexivity.
Qed.

Lemma round_pos_pos (p q : Z) : 1 <= p -> 0 < q -> q <= p * scale -> 0 < round_pos p q.
Proof.
  intros Hp Hq Hpq. unfold round_pos.
  pose proof scale_pos as Hs.
  set (X := p * scale) in *. set (Y := X / q).
  assert (HY : 1 <= Y) by (apply Z.div_le_lower_bound; lia).
  set (s := Z.max 0 (Z.log2 Y - 52)).
  assert (Hps : 0 < 2 ^ s) by (apply Z.pow_pos_nonneg; lia).
  assert (H2s : 2 ^ s <= Y).
  { destruct (Z.le_gt_cases (Z.log2 Y - 52) 0) as [H|H].
    - unfold s. rewrite Z.max_l by lia. simpl. lia.
    - unfold s. rewrite Z.max_r by lia.
      pose proof (Z.log2_spec Y ltac:(lia)) as [Hl _].
      eapply Z.le_trans; [|exact Hl]. apply Z.pow_le_mono_r; lia. }
  pose proof (rhe_bounds X (q * 2 ^ s) ltac:(nia)) as [He _].
  rewrite <- Z.div_div in He by lia. fold Y in He.
  assert (1 <= Y / 2 ^ s) by (apply Z.div_le_lower_bound; lia).
  nia.
Qed.

(** X: [memory_util] raises [ZeroDivisionError] exactly when the limit is
    0; when [0 <= current_memory <= max_memory < 2^53] and the limit is
    positive it lies in [0, 1.0], and it is 0 exactly when no memory is
    used. *)
Theorem X_memory_util_range (w : WorkerInfoModel) :
  (memory_util w = Err ZeroDivisionError <-> max_memory w = 0) /\
  (0 <= current_memory w <= max_memory w -> 0 < max_memory w < 2 ^ 53 ->
   exists u, memory_util w = Ok u /\ 0 <= u <= one /\ (u = 0 <-> current_memory w = 0)).
Proof.
  unfold memory_util, int_truediv. split.
  - destruct (Z.eqb_spec (max_memory w) 0); split; congruence.
  - intros Hc Hm. pose proof scale_pos as Hs.
    replace (max_memory w =? 0) with false by (symmetry; apply Z.eqb_neq; lia).
    rewrite round_ratio_nonneg by lia. rewrite one_eq.
    eexists. split; [reflexivity|].
    destruct (Z.eq_dec (current_memory w) 0) as [E|E].
    + rewrite E, round_pos_zero by lia. split; [lia|]. split; reflexivity.
    + pose proof (round_pos_pos (current_memory w) (max_memory w) ltac:(lia) ltac:(lia)) as Hp.
      assert (Hmax : max_memory w <= current_memory w * scale).
      { assert (2 ^ 53 <= scale) by (unfold scale, unit_exp; apply Z.pow_le_mono_r; lia). nia. }
      specialize (Hp Hmax).
      pose proof (round_pos_le_scale (current_memory w) (max_memory w) ltac:(lia) ltac:(lia) ltac:(lia)).
      split; [lia|]. split; [lia|]. intros; contradiction.
Qed.

Lemma X_memory_util_range_witness :
  (0 <= current_memory (sample_worker "tcp://10.0.0.1:4000" 250000000 1000000000 0)
     <= max_memory (sample_worker "tcp://10.0.0.1:4000" 250000000 1000000000 0)) /\
  exists u, memory_util (sample_worker "tcp://10.0.0.1:4000" 250000000 1000000000 0) = Ok u /\
    0 <= u <= one /\ (u = 0 <-> current_memory (sample_worker "tcp://10.0.0.1:4000" 250000000 1000000000 0) = 0).
Proof.
  split; [cbn; lia|].
  apply (proj2 (X_memory_util_range (sample_worker "tcp://10.0.0.1:4000" 250000000 1000000000 0)));
    cbn; lia.
Defined.

Lemma update_loop_err (ws : list WorkerInfoModel) :
  forall idx opts t e, update_loop idx ws opts t = Err e ->
  e = ZeroDivisionError /\ exists w, In w ws /\ max_memory w = 0.
Proof.
  induction ws as [|w rest IH]; intros idx opts t e H; [cbn [update_loop] in H; discriminate|].
  destruct (Z.eq_dec (max_memory w) 0) as [Z0|Z0].
  - rewrite update_loop_zero_limit in H by exact Z0. inversion H; subst.
    split; [reflexivity|]. exists w. split; [left; reflexivity|exact Z0].
  - cbn [update_loop] in H. destruct (memory_util_ok w Z0) as [u Hu].
    assert (Hm : exists m, format_mem w = Ok m)
      by (unfold format_mem; rewrite Hu; eexists; reflexivity).
    destruct Hm as [m Hm]. rewrite Hm in H. cbn [res_bind] in H. rewrite Hu in H.
    cbn [res_bind] in H. apply IH in H as [He [w' [Hin Hz]]].
    split; [exact He|]. exists w'. split; [right; exact Hin|exact Hz].
Qed.

Lemma update_loop_has_zero (ws : list WorkerInfoModel) (w0 : WorkerInfoModel) :
  In w0 ws -> max_memory w0 = 0 ->
  forall idx opts t, update_loop idx ws opts t = Err ZeroDivisionError.
Proof.
  induction ws as [|w rest IH]; intros Hin Hz idx opts t; [destruct Hin|].
  destruct (Z.eq_dec (max_memory w) 0) as [Z0|Z0].
  - apply update_loop_zero_limit. exact Z0.
  - destruct Hin as [->|Hin]; [contradiction|].
    destruct (memory_util_ok w Z0) as [u Hu].
    assert (Hm : exists m, format_mem w = Ok m)
      by (unfold format_mem; rewrite Hu; eexists; reflexivity).
    destruct Hm as [m Hm]. cbn [update_loop]. rewrite Hm. cbn [res_bind]. rewrite Hu.
    cbn [res_bind]. apply IH; assumption.
Qed.

(** X: a worker whose [memory_limit] is 0 makes the refresh raise
    [ZeroDivisionError] (from [_format_mem]); by then the manager already
    holds the new worker list, while both widgets keep their previous rows.
    No other exception comes out of the row loop. *)
Theorem X_zero_limit_aborts_render (fetch : res worker_map) (frame_no : Z) (s : scene)
    (ws : list WorkerInfoModel) (w : WorkerInfoModel) :
  refresh_due (last_frame s) frame_no = true ->
  manager_refresh fetch = Ok ws -> In w ws -> max_memory w = 0 ->
  scene_update fetch frame_no s =
    (Err ZeroDivisionError, set_model_workers ws (set_last_frame frame_no s)).
Proof.
  intros Hdue Hf Hin Hz.
  unfold scene_update, bindM, gets, modify, lift, refreshM.
  cbn -[refresh_due manager_refresh update_loop]. rewrite Hdue, Hf.
  cbn -[update_loop]. rewrite (update_loop_has_zero ws w Hin Hz). reflexivity.
Qed.

Lemma X_zero_limit_aborts_render_witness :
  refresh_due (last_frame (init_scene [])) 0 = true /\
  manager_refresh (Ok [("tcp://10.0.0.1:4000", sample_info 0 500000000)]) =
    Ok [sample_worker "tcp://10.0.0.1:4000" 500000000 0 (of_int 50)] /\
  scene_update (Ok [("tcp://10.0.0.1:4000", sample_info 0 500000000)]) 0 (init_scene []) =
    (Err ZeroDivisionError,
     set_model_workers [sample_worker "tcp://10.0.0.1:4000" 500000000 0 (of_int 50)]
       (set_last_frame 0 (init_scene []))).
Proof.
  assert (Hf : manager_refresh (Ok [("tcp://10.0.0.1:4000", sample_info 0 500000000)]) =
    Ok [sample_worker "tcp://10.0.0.1:4000" 500000000 0 (of_int 50)]) by (vm_compute; reflexivity).
  split; [reflexivity|]. split; [exact Hf|].
  apply (X_zero_limit_aborts_render _ 0 (init_scene []) _
           (sample_worker "tcp://10.0.0.1:4000" 500000000 0 (of_int 50)) eq_refl Hf).
  - left. reflexivity.
  - reflexivity.
Defined.

Lemma update_loop_rows (ws : list WorkerInfoModel) :
  forall idx opts t opts' t', update_loop idx ws opts t = Ok (opts', t') ->
  exists new, opts' = (opts ++ new)%list /\
    map snd new = map (fun k => idx + Z.of_nat k) (seq 0 (List.length ws)) /\
    Forall2 (fun w o => exists m, format_mem w = Ok m /\ fst o = worker_row w m) ws new.
Proof.
  induction ws as [|w rest IH]; intros idx opts t opts' t' H; cbn [update_loop] in H.
  - inversion H; subst. exists []. rewrite app_nil_r. split; [reflexivity|]. split; constructor.
  - destruct (format_mem w) as [m|e] eqn:Hm; cbn [res_bind] in H; [|discriminate].
    destruct (memory_util w) as [u|e]; cbn [res_bind] in H; [|discriminate].
    apply IH in H as [new [Ho [Hs Hf]]].
    exists ((worker_row w m, idx) :: new). split; [rewrite Ho, <- app_assoc; reflexivity|].
    split.
    + cbn [map List.length seq snd]. rewrite Hs, <- seq_shift, map_map. f_equal; [lia|].
      apply map_ext. intros k. lia.
    + constructor; [eauto|exact Hf].
Qed.

(** X: on a refresh tick whose fetch succeeds with workers whose limits are
    nonzero, the manager holds exactly the fetched workers, the worker table
    gets one row per worker in the same order, numbered 0, 1, ..., each row
    built from that worker, and the refresh completes without exception
    exactly when there is at least one worker. *)
Theorem X_refresh_rebuilds_rows (fetch : res worker_map) (frame_no : Z) (s : scene)
    (ws : list WorkerInfoModel) :
  refresh_due (last_frame s) frame_no = true ->
  manager_refresh fetch = Ok ws ->
  Forall (fun w => max_memory w <> 0) ws ->
  let s' := snd (scene_update fetch frame_no s) in
  last_frame s' = frame_no /\ model_workers s' = ws /\
  map snd (worker_options s') = map Z.of_nat (seq 0 (List.length ws)) /\
  Forall2 (fun w o => exists m, format_mem w = Ok m /\ fst o = worker_row w m)
          ws (worker_options s') /\
  (fst (scene_update fetch frame_no s) = Ok tt <-> ws <> []).
Proof.
  intros Hdue Hf Hall s'. unfold s'.
  unfold scene_update, bindM, gets, modify, lift, refreshM.
  cbn -[refresh_due manager_refresh update_loop rollup_row]. rewrite Hdue, Hf.
  cbn -[update_loop rollup_row].
  destruct (update_loop_ok ws Hall 0 [] zero_totals) as [[opts t] Hu]. rewrite Hu.
  destruct (update_loop_rows _ _ _ _ _ _ Hu) as [new [Ho [Hs Hr]]].
  cbn [app] in Ho. subst opts.
  assert (Hsn : map snd new = map Z.of_nat (seq 0 (List.length ws))).
  { rewrite Hs. apply map_ext. intros k. lia. }
  destruct ws as [|w ws'].
  - unfold worker_count, rollup_row, fdiv. cbn [List.length Z.of_nat].
    rewrite (of_int_exact 0) by lia. cbn -[update_loop].
    repeat split; try assumption; [discriminate|]. intros H. contradiction.
  - assert (Hn : of_int (worker_count (w :: ws')) <> 0)
      by (apply of_int_nonzero; unfold worker_count; cbn [List.length]; lia).
    unfold rollup_row, fdiv. apply Z.eqb_neq in Hn. rewrite Hn. cbn -[update_loop].
    repeat split; try assumption. discriminate.
Qed.

(** X: the row loop of [_update] raises only [ZeroDivisionError], and it
    raises exactly when some worker has [memory_limit] 0. *)
Theorem X_update_loop_errors (idx : Z) (ws : list WorkerInfoModel)
    (opts : list (list cell * Z)) (t : totals) (e : exn) :
  update_loop idx ws opts t = Err e <->
  e = ZeroDivisionError /\ exists w, In w ws /\ max_memory w = 0.
Proof.
  split.
  - apply update_loop_err.
  - intros [-> [w [Hin Hz]]]. exact (update_loop_has_zero ws w Hin Hz idx opts t).
Qed.

Lemma cpu_colour_tier (v : flt) : markup_tier (cpu_colour v) = cpu_tier_spec v.
Proof.
  unfold cpu_colour, cpu_tier_spec, flt_le, flt_lt.
  rewrite (of_int_exact 40), (of_int_exact 75), (of_int_exact 100) by lia.
  pose proof scale_pos as Hs.
  destruct (Z.ltb_spec v (40 * scale)), (Z.leb_spec (40 * scale) v),
           (Z.ltb_spec v (75 * scale)), (Z.leb_spec (75 * scale) v),
           (Z.leb_spec v (100 * scale)), (Z.ltb_spec (100 * scale) v);
    cbn [andb]; try reflexivity; nia.
Qed.

(** X: the CPU markup is monotone: a busier worker never gets a milder
    tier than a less busy one. *)
Theorem X_cpu_tier_monotone (v v' : flt) :
  v <= v' ->
  tier_rank (markup_tier (cpu_colour v)) <= tier_rank (markup_tier (cpu_colour v')).
Proof.
  intros H. rewrite !cpu_colour_tier. unfold cpu_tier_spec, flt_le, flt_lt.
  rewrite (of_int_exact 40), (of_int_exact 75), (of_int_exact 100) by lia.
  pose proof scale_pos as Hs.
  destruct (Z.ltb_spec v (40 * scale)), (Z.ltb_spec v (75 * scale)),
           (Z.leb_spec v (100 * scale)), (Z.ltb_spec v' (40 * scale)),
           (Z.ltb_spec v' (75 * scale)), (Z.leb_spec v' (100 * scale));
    cbn [tier_rank]; lia.
Qed.

Lemma X_cpu_tier_monotone_witness :
  of_int 90 <= of_int 150 /\
  tier_rank (markup_tier (cpu_colour (of_int 90))) <=
  tier_rank (markup_tier (cpu_colour (of_int 150))).
Proof.
  assert (H : of_int 90 <= of_int 150) by (vm_compute; discriminate).
  split; [exact H|]. exact (X_cpu_tier_monotone _ _ H).
Defined.

(** X: [src/dask_top]'s memory label and [src/dtop]'s memory cell carry the
    same text; their tiers agree except for a utilisation strictly between 0
    and 0.5, which [dask_top] colours [low_util] and [dtop] leaves unmarked. *)
Theorem X_label_matches_format_mem (w : WorkerInfoModel) (u : flt) :
  memory_util w = Ok u ->
  exists text c, get_memory_label w = Ok (text, c) /\
    format_mem w = Ok (mem_colour u ++ text) /\
    (if flt_lt 0 u && flt_lt u half
     then label_tier c = Low /\ markup_tier (mem_colour u) = Neutral
     else label_tier c = markup_tier (mem_colour u)).
Proof.
  intros Hu. unfold get_memory_label, format_mem. rewrite Hu. cbn [res_bind].
  eexists. eexists. split; [reflexivity|]. split; [reflexivity|].
  pose proof literal_order as (H0 & H1 & H2).
  unfold mem_colour, flt_lt, flt_le.
  destruct (Z.ltb_spec 0 u), (Z.ltb_spec u half), (Z.leb_spec half u),
           (Z.ltb_spec u three_quarters), (Z.leb_spec three_quarters u),
           (Z.leb_spec u one); cbn [andb];
    first [ split; reflexivity | reflexivity | lia ].
Qed.

Lemma X_label_matches_format_mem_witness :
  memory_util (sample_worker "tcp://10.0.0.1:4000" 250000000 1000000000 0) =
    Ok (round_ratio 1 4) /\
  exists text c,
    get_memory_label (sample_worker "tcp://10.0.0.1:4000" 250000000 1000000000 0) =
      Ok (text, c) /\
    format_mem (sample_worker "tcp://10.0.0.1:4000" 250000000 1000000000 0) =
      Ok (mem_colour (round_ratio 1 4) ++ text) /\
    (if flt_lt 0 (round_ratio 1 4) && flt_lt (round_ratio 1 4) half
     then label_tier c = Low /\ markup_tier (mem_colour (round_ratio 1 4)) = Neutral
     else label_tier c = markup_tier (mem_colour (round_ratio 1 4))).
Proof.
  assert (H : memory_util (sample_worker "tcp://10.0.0.1:4000" 250000000 1000000000 0) =
    Ok (round_ratio 1 4)) by (vm_compute; reflexivity).
  split; [exact H|]. exact (X_label_matches_format_mem _ _ H).
Defined.

(** X: [dask_top]'s [WorkerInfo] reads a subset of the keys [dtop]'s
    [from_worker] reads: wherever [from_worker] succeeds, [WorkerInfo]
    succeeds with the same values, and where only [from_worker] fails, the
    missing key is one of the four task counters. *)
Theorem X_dask_info_reads_fewer_keys (a : string) (info : raw_info) :
  (forall w, from_worker a info = Ok w ->
     dask_worker_info a info =
       Ok {| d_addr := addr w; d_max_memory := max_memory w;
             d_current_memory := current_memory w; d_cpu := cpu w; d_fds := fds w |}) /\
  (forall d e, dask_worker_info a info = Ok d -> from_worker a info = Err e ->
     e = KeyError "executing" \/ e = KeyError "in_memory" \/
     e = KeyError "ready" \/ e = KeyError "in_flight").
Proof.
  destruct info as [[lim|] [[[mem|] [c|] [n|] [x|] [im|] [r|] [fl|]]|]];
    unfold from_worker, dask_worker_info, metric, getitem; cbn [res_bind i_memory_limit
      i_metrics m_memory m_cpu m_num_fds m_executing m_in_memory m_ready m_in_flight];
    split; intros; try discriminate;
    repeat match goal with
           | H : Ok _ = Ok _ |- _ => inversion H; subst; clear H
           | H : Err _ = Err _ |- _ => inversion H; subst; clear H
           end;
    first [ reflexivity | tauto ].
Qed.

Lemma X_dask_info_reads_fewer_keys_witness :
  from_worker "tcp://10.0.0.1:4000" info_without_counters = Err (KeyError "executing") /\
  (exists d, dask_worker_info "tcp://10.0.0.1:4000" info_without_counters = Ok d) /\
  (KeyError "executing" = KeyError "executing" \/ KeyError "executing" = KeyError "in_memory" \/
   KeyError "executing" = KeyError "ready" \/ KeyError "executing" = KeyError "in_flight").
Proof.
  assert (Hf : from_worker "tcp://10.0.0.1:4000" info_without_counters =
                 Err (KeyError "executing")) by (vm_compute; reflexivity).
  assert (Hd : exists d, dask_worker_info "tcp://10.0.0.1:4000" info_without_counters = Ok d)
    by (eexists; vm_compute; reflexivity).
  destruct Hd as [d Hd].
  split; [exact Hf|]. split; [exists d; exact Hd|].
  exact (proj2 (X_dask_info_reads_fewer_keys _ _) d _ Hd Hf).
Defined.

Lemma dask_worker_infos_addrs (wi : worker_map) :
  forall ws, dask_worker_infos wi = Ok ws -> map d_addr ws = map fst wi.
Proof.
  induction wi as [|[a info] rest IH]; intros ws H; cbn [dask_worker_infos] in H.
  - inversion H; reflexivity.
  - destruct (dask_worker_info a info) as [d|e] eqn:Hd; cbn [res_bind] in H; [|discriminate].
    destruct (dask_worker_infos rest) as [ws'|e]; cbn [res_bind] in H; [|discriminate].
    inversion H; subst. cbn [map fst]. rewrite (IH ws' eq_refl). f_equal.
    unfold dask_worker_info in Hd.
    destruct (getitem "memory_limit" (i_memory_limit info)); cbn [res_bind] in Hd; [|discriminate].
    destruct (metric info "memory" m_memory); cbn [res_bind] in Hd; [|discriminate].
    destruct (metric info "cpu" m_cpu); cbn [res_bind] in Hd; [|discriminate].
    destruct (metric info "num_fds" m_num_fds); cbn [res_bind] in Hd; [|discriminate].
    inversion Hd; reflexivity.
Qed.

(** X: [ClusterWorkerInfo.worker_count] counts the entries of the mapping
    fetched by its own refresh, and keeps one record per entry, in the
    mapping's order; when the fetch or a record fails, the exception
    propagates and [self.workers] keeps its previous value. *)
Theorem X_cluster_worker_count (workers : option (list DaskWorkerInfo)) :
  (forall wi ws, dask_worker_infos wi = Ok ws ->
     cluster_worker_count (Ok wi) workers = (Ok (Z.of_nat (List.length wi)), Some ws) /\
     map d_addr ws = map fst wi) /\
  (forall fetch e, fst (cluster_worker_count fetch workers) = Err e ->
     snd (cluster_worker_count fetch workers) = workers).
Proof.
  split.
  - intros wi ws Hws. pose proof (dask_worker_infos_addrs wi ws Hws) as Ha.
    unfold cluster_worker_count, cluster_refresh. rewrite Hws.
    split; [|exact Ha].
    rewrite <- (length_map d_addr ws), Ha, length_map. reflexivity.
  - intros fetch e. unfold cluster_worker_count, cluster_refresh.
    destruct fetch as [wi|e']; [|reflexivity].
    destruct (dask_worker_infos wi); cbn; [discriminate|reflexivity].
Qed.

Lemma X_cluster_worker_count_witness :
  exists ws,
    dask_worker_infos [("tcp://10.0.0.1:4000", sample_info 1000000000 500000000);
                       ("tcp://10.0.0.2:4000", info_without_counters)] = Ok ws /\
    cluster_worker_count (Ok [("tcp://10.0.0.1:4000", sample_info 1000000000 500000000);
                              ("tcp://10.0.0.2:4000", info_without_counters)]) None =
      (Ok 2, Some ws) /\
    map d_addr ws = ["tcp://10.0.0.1:4000"; "tcp://10.0.0.2:4000"].
Proof.
  assert (Hd : exists ws, dask_worker_infos
            [("tcp://10.0.0.1:4000", sample_info 1000000000 500000000);
             ("tcp://10.0.0.2:4000", info_without_counters)] = Ok ws)
    by (eexists; vm_compute; reflexivity).
  destruct Hd as [ws Hd]. exists ws. split; [exact Hd|].
  exact (proj1 (X_cluster_worker_count None) _ ws Hd).
Defined.

(** X: on a tick that is not a refresh tick, [_update] neither queries the
    scheduler nor touches the scene: the outcome is the same whatever the
    scheduler would answer. *)
Theorem X_idle_tick (fetch : res worker_map) (frame_no : Z) (s : scene) :
  refresh_due (last_frame s) frame_no = false ->
  scene_update fetch frame_no s = (Ok tt, s).
Proof.
  intros H. unfold scene_update, bindM, gets, ret. cbn -[refresh_due]. rewrite H. reflexivity.
Qed.

Lemma X_idle_tick_witness :
  refresh_due (last_frame (set_last_frame 21 (init_scene []))) 30 = false /\
  scene_update (Err SourceError) 30 (set_last_frame 21 (init_scene [])) =
    (Ok tt, set_last_frame 21 (init_scene [])).
Proof.
  assert (H : refresh_due (last_frame (set_last_frame 21 (init_scene []))) 30 = false)
    by reflexivity.
  split; [exact H|]. exact (X_idle_tick _ _ _ H).
Defined.

Lemma X_refresh_rebuilds_rows_witness :
  refresh_due (last_frame (init_scene [])) 0 = true /\
  manager_refresh (Ok [("tcp://10.0.0.1:4000", sample_info 1000000000 500000000)]) =
    Ok [sample_worker "tcp://10.0.0.1:4000" 500000000 1000000000 (of_int 50)] /\
  Forall (fun w => max_memory w <> 0)
    [sample_worker "tcp://10.0.0.1:4000" 500000000 1000000000 (of_int 50)] /\
  fst (scene_update (Ok [("tcp://10.0.0.1:4000", sample_info 1000000000 500000000)]) 0
         (init_scene [])) = Ok tt.
Proof.
  assert (Hf : manager_refresh (Ok [("tcp://10.0.0.1:4000", sample_info 1000000000 500000000)]) =
    Ok [sample_worker "tcp://10.0.0.1:4000" 500000000 1000000000 (of_int 50)])
    by (vm_compute; reflexivity).
  assert (Hz : Forall (fun w => max_memory w <> 0)
    [sample_worker "tcp://10.0.0.1:4000" 500000000 1000000000 (of_int 50)])
    by (constructor; [cbn; lia | constructor]).
  split; [reflexivity|]. split; [exact Hf|]. split; [exact Hz|].
  destruct (X_refresh_rebuilds_rows _ 0 (init_scene []) _ eq_refl Hf Hz)
    as (_ & _ & _ & _ & Hok).
  apply Hok. discriminate.
Defined.
